(** * Flow past a cylinder: the notebook [navier_stokes_cylinder.ipynb]

    The notebook is a script over two external libraries (the FEniCS
    finite-element framework and the mshr mesh generator).  Everything
    numerical happens inside those libraries; what the notebook itself
    decides is which objects it builds and which library calls it makes,
    in which order and with which arguments.

    The embedding follows that division:
    - Python values the notebook computes itself (the constants of cell 16,
      the loop counter, the simulation time) are computed here, floats as
      IEEE binary64 numbers;
    - objects of the libraries (geometries, forms, boundary conditions,
      assembled tensors) are symbolic values that record how the notebook
      built them;
    - calls into the libraries that have an effect are recorded, in program
      order, in a log carried by a writer monad. *)

From Stdlib Require Import ZArith List String Bool Floats Lia.
Import ListNotations.

Set Warnings "-inexact-float".

Local Open Scope string_scope.
Local Open Scope list_scope.
Local Open Scope Z_scope.

(** ** Python numbers *)

(** An [int] operand of a float operation is converted to the float of the
    same value (exact for every integer the notebook uses). *)
Definition float_of_int (z : Z) : float :=
  PrimFloat.of_uint63 (Uint63.of_Z z).

(** [range(lo, hi)] *)
Definition range (lo hi : Z) : list Z :=
  map (fun i => lo + Z.of_nat i) (seq 0 (Z.to_nat (hi - lo))).

(** A number literal as it is written in the source. *)
Inductive PyNum : Type :=
| PyInt (z : Z)
| PyFloat (x : float).

(** ** Cell 4: the geometry (mshr constructive solid geometry) *)

Module CSG.

(** [Point(x, y)]; integer arguments are converted to doubles. *)
Record Point : Type := mkPoint { px : float; py : float }.

(** The primitives the notebook uses and mshr's three set operations,
    written [+], [*] and [-] in Python. *)
Inductive Geometry : Type :=
| Rectangle (a b : Point)
| Circle (c : Point) (r : float) (segments : Z)
| Union (g h : Geometry)
| Intersection (g h : Geometry)
| Difference (g h : Geometry).

Fixpoint primitives (g : Geometry) : list Geometry :=
  match g with
  | Rectangle _ _ | Circle _ _ _ => [g]
  | Union a b | Intersection a b | Difference a b =>
      primitives a ++ primitives b
  end.

Fixpoint unions (g : Geometry) : nat :=
  match g with
  | Rectangle _ _ | Circle _ _ _ => 0
  | Union a b => S (unions a + unions b)
  | Intersection a b | Difference a b => unions a + unions b
  end.

Fixpoint intersections (g : Geometry) : nat :=
  match g with
  | Rectangle _ _ | Circle _ _ _ => 0
  | Intersection a b => S (intersections a + intersections b)
  | Union a b | Difference a b => intersections a + intersections b
  end.

Fixpoint differences (g : Geometry) : nat :=
  match g with
  | Rectangle _ _ | Circle _ _ _ => 0
  | Difference a b => S (differences a + differences b)
  | Union a b | Intersection a b => differences a + differences b
  end.

(** channel = Rectangle(Point(0, 0), Point(2.2, 0.41)) *)
Definition channel : Geometry :=
  Rectangle (mkPoint (float_of_int 0) (float_of_int 0))
            (mkPoint 2.2%float 0.41%float).

(** cylinder = Circle(Point(0.2, 0.2), 0.05, 16) *)
Definition cylinder : Geometry :=
  Circle (mkPoint 0.2%float 0.2%float) 0.05%float 16.

(** domain = channel - cylinder *)
Definition domain : Geometry := Difference channel cylinder.

End CSG.

(** ** Cell 9: function spaces *)

(** [VectorFunctionSpace(mesh, family, degree)] and
    [FunctionSpace(mesh, family, degree)] over the one mesh of the notebook. *)
Record FunctionSpace : Type := mkSpace {
  vector_valued : bool;
  family : string;
  degree : Z
}.

(** V = VectorFunctionSpace(mesh, 'P', 2) *)
Definition V : FunctionSpace := mkSpace true "P" 2.
(** Q = FunctionSpace(mesh, 'P', 1) *)
Definition Q : FunctionSpace := mkSpace false "P" 1.

(** ** Cell 11: boundary predicates (C++ strings handed to the framework)

    The cell rebinds the name [cylinder], which cell 4 bound to the circle;
    [CSG.domain] was computed before that. *)

Module Boundary.
Definition inflow   := "near(x[0], 0)".
Definition outflow  := "near(x[0], 2.2)".
Definition walls    := "near(x[1], 0) || near(x[1], 0.41)".
Definition cylinder :=
  "on_boundary && x[0]>0.1 && x[0]<0.3 && x[1]>0.1 && x[1]<0.3".
End Boundary.

(** ** Cell 13: boundary conditions *)

(** [Constant(c)] of a number or of a tuple of numbers. *)
Inductive Constant : Type :=
| Scalar (c : PyNum)
| Tuple (cs : list PyNum).

(** The value a Dirichlet condition prescribes. *)
Inductive BCValue : Type :=
| Expression (components : list string) (degree : Z)
| ConstantValue (c : Constant).

(** [DirichletBC(space, value, where)] *)
Record DirichletBC : Type := mkBC {
  bc_space : FunctionSpace;
  bc_value : BCValue;
  bc_where : string
}.

Definition inflow_profile : list string :=
  ["4.0*1.5*x[1]*(0.41 - x[1]) / pow(0.41, 2)"; "0"].

Definition bcu_inflow : DirichletBC :=
  mkBC V (Expression inflow_profile 2) Boundary.inflow.
Definition bcu_walls : DirichletBC :=
  mkBC V (ConstantValue (Tuple [PyInt 0; PyInt 0])) Boundary.walls.
Definition bcu_cylinder : DirichletBC :=
  mkBC V (ConstantValue (Tuple [PyInt 0; PyInt 0])) Boundary.cylinder.
Definition bcp_outflow : DirichletBC :=
  mkBC Q (ConstantValue (Scalar (PyInt 0))) Boundary.outflow.

Definition bcu : list DirichletBC := [bcu_inflow; bcu_walls; bcu_cylinder].
Definition bcp : list DirichletBC := [bcp_outflow].

(** ** Cell 16: parameters *)

Module Params.
Definition mu : float := 0.001%float.
Definition rho : Z := 1.
Definition T : float := 5.0%float.
Definition num_steps : Z := 5000.
(** dt = T / num_steps *)
Definition dt : float := (T / float_of_int num_steps)%float.
End Params.

(** ** Cell 18: the variational forms (UFL) *)

(** The four [Function] objects of the notebook. *)
Inductive FunName : Type := u_k | u_ | p_k | p_.

Inductive Expr : Type :=
| TrialFunction (S : FunctionSpace)
| TestFunction (S : FunctionSpace)
| Coef (f : FunName)
| Const (c : Constant)
| Num (x : PyNum)
| FacetNormal
| Identity (len_of : Expr)
| Add (a b : Expr)
| Sub (a b : Expr)
| Mul (a b : Expr)
| Div (a b : Expr)
| dot (a b : Expr)
| inner (a b : Expr)
| nabla_grad (a : Expr)
| div (a : Expr)
| sym (a : Expr).

Inductive Measure : Type := dx | ds.

Inductive Form : Type :=
| Integral (e : Expr) (m : Measure)
| FormAdd (f g : Form)
| FormSub (f g : Form)
| lhs (f : Form)
| rhs (f : Form).

Declare Scope ufl_scope.
Delimit Scope ufl_scope with ufl.
Bind Scope ufl_scope with Expr.
Notation "a + b" := (Add a b) : ufl_scope.
Notation "a - b" := (Sub a b) : ufl_scope.
Notation "a * b" := (Mul a b) : ufl_scope.
Notation "a / b" := (Div a b) : ufl_scope.

Declare Scope form_scope.
Delimit Scope form_scope with form.
Bind Scope form_scope with Form.
Notation "f + g" := (FormAdd f g) : form_scope.
Notation "f - g" := (FormSub f g) : form_scope.
Notation "e ** m" := (Integral e%ufl m) (at level 35) : form_scope.

Module Forms.

Definition u : Expr := TrialFunction V.
Definition v : Expr := TestFunction V.
Definition p : Expr := TrialFunction Q.
Definition q : Expr := TestFunction Q.

(** mu = Constant(mu), run before any form is built *)
Definition mu : Expr := Const (Scalar (PyFloat Params.mu)).
Definition rho : Expr := Num (PyInt Params.rho).
Definition f : Expr := Const (Tuple [PyInt 0; PyInt 0]).
Definition DT : Expr := Const (Scalar (PyFloat Params.dt)).

(** def epsilon(u): return sym(nabla_grad(u)) *)
Definition epsilon (u : Expr) : Expr := sym (nabla_grad u).

(** def sigma(u, p): return 2*mu*epsilon(u) - p*Identity(len(u)) *)
Definition sigma (u p : Expr) : Expr :=
  (Num (PyInt 2) * mu * epsilon u - p * Identity u)%ufl.

Definition u_mid : Expr := (Num (PyFloat 0.5%float) * (Coef u_k + u))%ufl.
Definition n : Expr := FacetNormal.

Definition F1 : Form :=
  (  (rho * dot ((u - Coef u_k) / DT) v) ** dx
   + (rho * dot (dot (Coef u_k) (nabla_grad (Coef u_k))) v) ** dx
   + (inner (sigma u_mid (Coef p_k)) (epsilon v)) ** dx
   + (dot (Coef p_k * n) v) ** ds
   - (dot (mu * nabla_grad u_mid * n) v) ** ds
   - (dot f v) ** dx)%form.

Definition a1 : Form := lhs F1.
Definition L1 : Form := rhs F1.

Definition a2 : Form := ((dot (nabla_grad p) (nabla_grad q)) ** dx)%form.
Definition L2 : Form :=
  (  (dot (nabla_grad (Coef p_k)) (nabla_grad q)) ** dx
   - ((Num (PyInt 1) / DT) * div (Coef u_) * q) ** dx)%form.

Definition a3 : Form := ((dot u v) ** dx)%form.
Definition L3 : Form :=
  (  (dot (Coef u_) v) ** dx
   - (DT * dot (nabla_grad (Coef p_ - Coef p_k)) v) ** dx)%form.

End Forms.

(** ** Library objects and library calls *)

(** An assembled tensor (a matrix for a bilinear form, a vector for a
    linear one), as the notebook built it: the form it was assembled from
    and the boundary conditions applied to it since, oldest first. *)
Record Tensor : Type := mkTensor {
  form : Form;
  applied : list DirichletBC
}.

(** Output files: [XDMFFile(path)] and [File(path)]. *)
Inductive OutFile : Type :=
| XDMFFile (path : string)
| File (path : string).

(** [TimeSeries(name)] *)
Inductive Series : Type :=
| TimeSeries (name : string).

(** The calls with an effect, with their arguments.  A tensor argument is
    recorded with the value it has at the call.  [SeriesStore] is the
    library's [TimeSeries.store(vector, t)]. *)
Inductive Call : Type :=
| GenerateMesh (g : CSG.Geometry) (resolution : Z)
| PlotMesh
| WriteMesh (f : OutFile)
| Assemble (f : Form)
| BCApply (bc : DirichletBC) (x : Tensor)
| NewProgress (title : string)
| SetLogLevel (level : string)
| OpenFile (f : OutFile)
| OpenSeries (s : Series)
| SeriesStore (s : Series) (x : FunName) (t : float)
| Solve (A : Tensor) (x : FunName) (b : Tensor) (method precond : string)
| PrintMax (label : string) (x : FunName)
| WriteField (f : OutFile) (x : FunName) (t : float)
| Assign (dst src : FunName)
| ProgressUpdate (fraction : float)
| Interactive.

(** *** The writer monad of the call log *)

Definition W (A : Type) : Type := (A * list Call)%type.

Definition ret {A : Type} (a : A) : W A := (a, []).

Definition bind {A B : Type} (m : W A) (k : A -> W B) : W B :=
  let r := k (fst m) in (fst r, snd m ++ snd r).

Definition call (c : Call) : W unit := (tt, [c]).

Declare Scope writer_scope.
Delimit Scope writer_scope with writer.
Notation "x <- m ;; k" := (bind m (fun x => k))
  (at level 61, m at next level, right associativity) : writer_scope.
Notation "m ;; k" := (bind m (fun _ => k))
  (at level 61, right associativity) : writer_scope.
Local Open Scope writer_scope.

(** [for x in xs: e = body(x, e)] *)
Fixpoint for_each {X E : Type} (xs : list X) (body : X -> E -> W E) (e : E)
  : W E :=
  match xs with
  | [] => ret e
  | x :: rest => e' <- body x e ;; for_each rest body e'
  end.

(** *** The library calls the notebook makes *)

(** [assemble(form)] returns a fresh tensor. *)
Definition assemble (f : Form) : W Tensor :=
  call (Assemble f) ;; ret (mkTensor f []).

(** [bc.apply(x)] changes [x] in place. *)
Definition bc_apply (bc : DirichletBC) (x : Tensor) : W Tensor :=
  call (BCApply bc x) ;; ret (mkTensor (form x) (applied x ++ [bc])).

(** [[bc.apply(x) for bc in bcs]] *)
Fixpoint apply_each (bcs : list DirichletBC) (x : Tensor) : W Tensor :=
  match bcs with
  | [] => ret x
  | bc :: rest => x' <- bc_apply bc x ;; apply_each rest x'
  end.

(** [solve(A, x.vector(), b, method, preconditioner)] *)
Definition solve (A : Tensor) (x : FunName) (b : Tensor)
  (method precond : string) : W unit :=
  call (Solve A x b method precond).

(** ** Cell 6: the mesh *)

Definition cell_mesh : W unit :=
  call (GenerateMesh CSG.domain 64) ;;
  call PlotMesh ;;
  call (WriteMesh (File "navier_stokes_cylinder/cylinder.pvd")).

(** ** Cell 18, the assembly part: the three system matrices *)

Definition cell_matrices : W (Tensor * Tensor * Tensor) :=
  A1 <- assemble Forms.a1 ;;
  A1 <- apply_each bcu A1 ;;
  A2 <- assemble Forms.a2 ;;
  A2 <- apply_each bcp A2 ;;
  A3 <- assemble Forms.a3 ;;
  ret (A1, A2, A3).

(** ** Cell 20 *)

Definition cell_progress : W unit :=
  call (NewProgress "Time-stepping") ;;
  call (SetLogLevel "PROGRESS").

(** ** Cells 25 and 27: output files and time series

    [hdf5] is the value of ['HDF5File' in globals()]: whether the framework
    was built with HDF5 support.  Nothing in the notebook binds or deletes
    that name, so the test has one value throughout a run. *)

Definition xdmffile_u : OutFile := XDMFFile "navier_stokes_cylinder/velocity.xdmf".
Definition xdmffile_p : OutFile := XDMFFile "navier_stokes_cylinder/pressure.xdmf".
Definition vtkfile_u : OutFile := File "navier_stokes_cylinder/velocity.pvd".
Definition vtkfile_p : OutFile := File "navier_stokes_cylinder/pressure.pvd".

Definition cell_files (hdf5 : bool) : W unit :=
  if hdf5 then
    call (OpenFile xdmffile_u) ;;
    call (OpenFile xdmffile_p)
  else
    call (OpenFile vtkfile_u) ;;
    call (OpenFile vtkfile_p).

Definition timeseries_u : Series := TimeSeries "navier_stokes_cylinder/velocity_series".
Definition timeseries_p : Series := TimeSeries "navier_stokes_cylinder/pressure_series".

Definition cell_series (hdf5 : bool) : W unit :=
  if hdf5 then
    call (OpenSeries timeseries_u) ;;
    call (OpenSeries timeseries_p)
  else
    ret tt.

(** ** Cell 29: time stepping *)

(** The names the time loop updates ([t]) or reads ([dt], [A1], [A2],
    [A3]) from one iteration to the next. *)
Record Env : Type := mkEnv {
  t : float;
  dt : float;
  A1 : Tensor;
  A2 : Tensor;
  A3 : Tensor
}.

(** out_interval = num_steps / 100

    In Python 3 this is the float 50.0 and [k % out_interval == 0] compares
    a float remainder with 0.  The operands are integers far below 2^53,
    on which float division and remainder are exact, so the quotient and
    the test are the integer ones. *)
Definition out_interval : Z := Params.num_steps / 100.

(** k % out_interval == 0 or k == num_steps *)
Definition is_output_step (k : Z) : bool :=
  (k mod out_interval =? 0) || (k =? Params.num_steps).

(** The block under [if k%out_interval == 0 or k == num_steps:] *)
Definition save_solution (hdf5 : bool) (now : float) : W unit :=
  call (PrintMax "u max:" u_) ;;
  if hdf5 then
    call (WriteField xdmffile_u u_ now) ;;
    call (WriteField xdmffile_p p_ now)
  else
    call (WriteField vtkfile_u u_ now) ;;
    call (WriteField vtkfile_p p_ now).

(** The body of [for k in range(1, num_steps+1):] *)
Definition body (hdf5 : bool) (k : Z) (e : Env) : W Env :=
  (* t += dt *)
  let e := mkEnv (t e + dt e)%float (dt e) (A1 e) (A2 e) (A3 e) in
  (* Step 1: tentative velocity step *)
  b1 <- assemble Forms.L1 ;;
  b1 <- apply_each bcu b1 ;;
  solve (A1 e) u_ b1 "bicgstab" "ilu" ;;
  (* Step 2: pressure correction step *)
  b2 <- assemble Forms.L2 ;;
  b2 <- apply_each bcp b2 ;;
  solve (A2 e) p_ b2 "bicgstab" "ilu" ;;
  (* Step 3: velocity correction step *)
  b3 <- assemble Forms.L3 ;;
  solve (A3 e) u_ b3 "cg" "sor" ;;
  (if is_output_step k then save_solution hdf5 (t e) else ret tt) ;;
  (* update previous solution *)
  call (Assign u_k u_) ;;
  call (Assign p_k p_) ;;
  call (ProgressUpdate (t e / Params.T)%float) ;;
  ret e.

(** Everything before the loop, ending with [t = 0]. *)
Definition setup (hdf5 : bool) : W Env :=
  cell_mesh ;;
  As <- cell_matrices ;;
  cell_progress ;;
  cell_files hdf5 ;;
  cell_series hdf5 ;;
  let '(A1, A2, A3) := As in
  ret (mkEnv (float_of_int 0) Params.dt A1 A2 A3).

Definition time_loop (hdf5 : bool) (e : Env) : W Env :=
  for_each (range 1 (Params.num_steps + 1)) (body hdf5) e.

(** The whole notebook. *)
Definition notebook (hdf5 : bool) : W Env :=
  e <- setup hdf5 ;;
  e <- time_loop hdf5 e ;;
  call Interactive ;;
  ret e.

(** ** Observations on a run *)

(** The environment after the first [k] iterations of the loop. *)
Definition env_after (hdf5 : bool) (k : Z) : Env :=
  fst (for_each (range 1 (k + 1)) (body hdf5) (fst (setup hdf5))).

(** The calls of iteration [k]: the body run on the environment the first
    [k - 1] iterations leave. *)
Definition iteration (hdf5 : bool) (k : Z) : list Call :=
  snd (body hdf5 k (env_after hdf5 (k - 1))).

(** [x + ... + x] ([n] copies), summed from the left starting at [t0]. *)
Definition advance (n : nat) (x t0 : float) : float :=
  fold_left PrimFloat.add (repeat x n) t0.

Definition sum_copies (n : nat) (x : float) : float :=
  advance n x (float_of_int 0).

Definition is_solve (c : Call) : bool :=
  match c with Solve _ _ _ _ _ => true | _ => false end.

Definition is_assemble (c : Call) : bool :=
  match c with Assemble _ => true | _ => false end.

Definition is_bc_apply (c : Call) : bool :=
  match c with BCApply _ _ => true | _ => false end.

Definition is_series_call (c : Call) : bool :=
  match c with OpenSeries _ | SeriesStore _ _ _ => true | _ => false end.

Definition is_store (c : Call) : bool :=
  match c with SeriesStore _ _ _ => true | _ => false end.

(** Calls that put data into a file. *)
Definition is_file_write (c : Call) : bool :=
  match c with
  | WriteMesh _ | WriteField _ _ _ | SeriesStore _ _ _ => true
  | _ => false
  end.

Definition solves (cs : list Call) : list Call := filter is_solve cs.

Definition file_writes (cs : list Call) : list Call := filter is_file_write cs.

(** The forms assembled by a sequence of calls, in order. *)
Definition assembled (cs : list Call) : list Form :=
  flat_map (fun c => match c with Assemble f => [f] | _ => [] end) cs.

(** The (method, preconditioner) pairs of the solves, in order. *)
Definition solver_choices (cs : list Call) : list (string * string) :=
  flat_map (fun c => match c with
                     | Solve _ _ _ m pc => [(m, pc)]
                     | _ => []
                     end) cs.

(** A form with a trial function is bilinear and assembles to a matrix;
    [lhs] selects the bilinear part of a form and [rhs] the linear one. *)
Fixpoint has_trial (e : Expr) : bool :=
  match e with
  | TrialFunction _ => true
  | TestFunction _ | Coef _ | Const _ | Num _ | FacetNormal => false
  | Identity _ => false
  | Add a b | Sub a b | Mul a b | Div a b | dot a b | inner a b =>
      has_trial a || has_trial b
  | nabla_grad a | div a | sym a => has_trial a
  end.

Fixpoint is_bilinear (f : Form) : bool :=
  match f with
  | Integral e _ => has_trial e
  | FormAdd f g | FormSub f g => is_bilinear f || is_bilinear g
  | lhs _ => true
  | rhs _ => false
  end.

(** Calls that create or change a matrix.  [solve] reads its matrix. *)
Definition touches_matrix (c : Call) : bool :=
  match c with
  | Assemble f => is_bilinear f
  | BCApply _ x => is_bilinear (form x)
  | _ => false
  end.

Definition velocity_file (hdf5 : bool) : OutFile :=
  if hdf5 then xdmffile_u else vtkfile_u.

Definition pressure_file (hdf5 : bool) : OutFile :=
  if hdf5 then xdmffile_p else vtkfile_p.

(** The boundary conditions in force in the two tensors of each solve. *)
Definition solve_constraints (cs : list Call)
  : list (list DirichletBC * list DirichletBC) :=
  flat_map (fun c => match c with
                     | Solve A _ b _ _ => [(applied A, applied b)]
                     | _ => []
                     end) cs.

(** The forms of the tensors that boundary conditions are applied to. *)
Definition bc_targets (cs : list Call) : list Form :=
  flat_map (fun c => match c with BCApply _ x => [form x] | _ => [] end) cs.

(** The files a sequence of calls puts data into, in order. *)
Definition written_files (cs : list Call) : list OutFile :=
  flat_map (fun c => match c with
                     | WriteMesh f | WriteField f _ _ => [f]
                     | _ => []
                     end) cs.

(** ** Function spaces and data flow of the calls *)

(** u_k = Function(V); u_ = Function(V); p_k = Function(Q); p_ = Function(Q) *)
Definition space_of (f : FunName) : FunctionSpace :=
  match f with
  | u_k | u_ => V
  | p_k | p_ => Q
  end.

Definition space_eqb (S S' : FunctionSpace) : bool :=
  Bool.eqb (vector_valued S) (vector_valued S')
  && String.eqb (family S) (family S')
  && (degree S =? degree S').

Definition fun_eqb (f g : FunName) : bool :=
  match f, g with
  | u_k, u_k | u_, u_ | p_k, p_k | p_, p_ => true
  | _, _ => false
  end.

(** The spaces of the trial functions of an expression.  [Identity(len(u))]
    takes from [u] only its length. *)
Fixpoint trial_spaces (e : Expr) : list FunctionSpace :=
  match e with
  | TrialFunction sp => [sp]
  | TestFunction _ | Coef _ | Const _ | Num _ | FacetNormal => []
  | Identity _ => []
  | Add a b | Sub a b | Mul a b | Div a b | dot a b | inner a b =>
      trial_spaces a ++ trial_spaces b
  | nabla_grad a | div a | sym a => trial_spaces a
  end.

(** The spaces of the test functions of an expression. *)
Fixpoint test_spaces (e : Expr) : list FunctionSpace :=
  match e with
  | TestFunction sp => [sp]
  | TrialFunction _ | Coef _ | Const _ | Num _ | FacetNormal => []
  | Identity _ => []
  | Add a b | Sub a b | Mul a b | Div a b | dot a b | inner a b =>
      test_spaces a ++ test_spaces b
  | nabla_grad a | div a | sym a => test_spaces a
  end.

(** The [Function] objects an expression reads. *)
Fixpoint coefficients (e : Expr) : list FunName :=
  match e with
  | Coef f => [f]
  | TrialFunction _ | TestFunction _ | Const _ | Num _ | FacetNormal => []
  | Identity _ => []
  | Add a b | Sub a b | Mul a b | Div a b | dot a b | inner a b =>
      coefficients a ++ coefficients b
  | nabla_grad a | div a | sym a => coefficients a
  end.

(** The trial spaces of a form; the linear part [rhs f] has none. *)
Fixpoint form_trial_spaces (f : Form) : list FunctionSpace :=
  match f with
  | Integral e _ => trial_spaces e
  | FormAdd f g | FormSub f g => form_trial_spaces f ++ form_trial_spaces g
  | lhs f => form_trial_spaces f
  | rhs _ => []
  end.

(** The test spaces of a form; [lhs] and [rhs] keep the test function. *)
Fixpoint form_test_spaces (f : Form) : list FunctionSpace :=
  match f with
  | Integral e _ => test_spaces e
  | FormAdd f g | FormSub f g => form_test_spaces f ++ form_test_spaces g
  | lhs f | rhs f => form_test_spaces f
  end.

(** The [Function] objects a form may read: those written in it.  For
    [lhs f] and [rhs f] these are the functions of [f], of which each part
    reads some. *)
Fixpoint form_coefficients (f : Form) : list FunName :=
  match f with
  | Integral e _ => coefficients e
  | FormAdd f g | FormSub f g => form_coefficients f ++ form_coefficients g
  | lhs f | rhs f => form_coefficients f
  end.

(** The [Function] objects whose values a call reads.  [solve] overwrites
    its unknown and is not counted as reading it. *)
Definition call_reads (c : Call) : list FunName :=
  match c with
  | Assemble f => form_coefficients f
  | SeriesStore _ x _ | PrintMax _ x | WriteField _ x _ => [x]
  | Assign _ src => [src]
  | _ => []
  end.

(** The [Function] objects a call overwrites. *)
Definition call_writes (c : Call) : list FunName :=
  match c with
  | Solve _ x _ _ _ => [x]
  | Assign dst _ => [dst]
  | _ => []
  end.

Definition reads_fun (x : FunName) (c : Call) : bool :=
  existsb (fun_eqb x) (call_reads c).

Definition writes_fun (x : FunName) (c : Call) : bool :=
  existsb (fun_eqb x) (call_writes c).

(** Whether, in [cs], some call satisfying [q] comes after a call
    satisfying [p]. *)
Fixpoint occurs_after (p q : Call -> bool) (cs : list Call) : bool :=
  match cs with
  | [] => false
  | c :: rest => (p c && existsb q rest) || occurs_after p q rest
  end.

(** Whether the spaces of a call fit together: a boundary condition is
    applied to a tensor whose form is tested in the condition's space; a
    system is solved for a function of the space in which its matrix has
    its trial and test functions and its right-hand side its test function,
    the right-hand side having no trial function; a function is assigned
    from a function of its own space. *)
Definition spaces_fit (c : Call) : bool :=
  match c with
  | BCApply bc x =>
      negb (Nat.eqb (List.length (form_test_spaces (form x))) 0)
      && forallb (space_eqb (bc_space bc)) (form_test_spaces (form x))
  | Solve A x b _ _ =>
      negb (Nat.eqb (List.length (form_trial_spaces (form A))) 0)
      && forallb (space_eqb (space_of x)) (form_trial_spaces (form A))
      && forallb (space_eqb (space_of x)) (form_test_spaces (form A))
      && negb (Nat.eqb (List.length (form_test_spaces (form b))) 0)
      && forallb (space_eqb (space_of x)) (form_test_spaces (form b))
      && Nat.eqb (List.length (form_trial_spaces (form b))) 0
  | Assign dst src => space_eqb (space_of dst) (space_of src)
  | _ => true
  end.

(** ** Files and further projections of the call log *)

Definition is_print (c : Call) : bool :=
  match c with PrintMax _ _ => true | _ => false end.

Definition is_field_write (c : Call) : bool :=
  match c with WriteField _ _ _ => true | _ => false end.


(** The files opened, in order. *)
Definition opened_files (cs : list Call) : list OutFile :=
  flat_map (fun c => match c with OpenFile f => [f] | _ => [] end) cs.

(** The files fields are written to, in order. *)
Definition field_files (cs : list Call) : list OutFile :=
  flat_map (fun c => match c with WriteField f _ _ => [f] | _ => [] end) cs.


(** The conditions applied, in order. *)
Definition applied_conditions (cs : list Call) : list DirichletBC :=
  flat_map (fun c => match c with BCApply bc _ => [bc] | _ => [] end) cs.

(** The fractions reported to the progress bar, in order. *)
Definition progress_fractions (cs : list Call) : list float :=
  flat_map (fun c => match c with ProgressUpdate f => [f] | _ => [] end) cs.

(** "Each iteration assembles the sub-problems it then solves", read on a
    sequence of calls: the form of the matrix and the form of the
    right-hand side of every solve are assembled in that sequence. *)
Definition assembles_what_it_solves (cs : list Call) : Prop :=
  forall A x b m pc,
    In (Solve A x b m pc) cs ->
    In (form A) (assembled cs) /\ In (form b) (assembled cs).

(** *** The calls a run consists of, written out *)

(** The calls of the three steps, in program order. *)
Definition step_calls (e : Env) : list Call :=
  [ Assemble Forms.L1;
    BCApply bcu_inflow (mkTensor Forms.L1 []);
    BCApply bcu_walls (mkTensor Forms.L1 [bcu_inflow]);
    BCApply bcu_cylinder (mkTensor Forms.L1 [bcu_inflow; bcu_walls]);
    Solve (A1 e) u_ (mkTensor Forms.L1 bcu) "bicgstab" "ilu";
    Assemble Forms.L2;
    BCApply bcp_outflow (mkTensor Forms.L2 []);
    Solve (A2 e) p_ (mkTensor Forms.L2 bcp) "bicgstab" "ilu";
    Assemble Forms.L3;
    Solve (A3 e) u_ (mkTensor Forms.L3 []) "cg" "sor" ].

Definition output_calls (h : bool) (now : float) : list Call :=
  [ PrintMax "u max:" u_;
    WriteField (velocity_file h) u_ now;
    WriteField (pressure_file h) p_ now ].

Definition closing_calls (now : float) : list Call :=
  [ Assign u_k u_; Assign p_k p_; ProgressUpdate (now / Params.T)%float ].

(** The calls made before the loop. *)
Definition setup_calls (h : bool) : list Call :=
  [ GenerateMesh CSG.domain 64;
    PlotMesh;
    WriteMesh (File "navier_stokes_cylinder/cylinder.pvd");
    Assemble Forms.a1;
    BCApply bcu_inflow (mkTensor Forms.a1 []);
    BCApply bcu_walls (mkTensor Forms.a1 [bcu_inflow]);
    BCApply bcu_cylinder (mkTensor Forms.a1 [bcu_inflow; bcu_walls]);
    Assemble Forms.a2;
    BCApply bcp_outflow (mkTensor Forms.a2 []);
    Assemble Forms.a3;
    NewProgress "Time-stepping";
    SetLogLevel "PROGRESS";
    OpenFile (velocity_file h);
    OpenFile (pressure_file h) ]
  ++ (if h then [OpenSeries timeseries_u; OpenSeries timeseries_p] else []).

(** * Properties *)

(** Splits the conjunctions of a goal, and nothing else. *)
Ltac conjs := repeat match goal with |- _ /\ _ => split end.

(** ** The writer monad and the loop *)

Lemma for_each_app {X E : Type} (body : X -> E -> W E) (xs ys : list X) (e : E) :
  for_each (xs ++ ys) body e =
  (e' <- for_each xs body e ;; for_each ys body e').
Proof.
  revert e. induction xs as [| x xs IH]; intros e.
  - cbn [app for_each]. unfold bind, ret. cbn [fst snd app].
    now destruct (for_each ys body e).
  - cbn [app for_each]. unfold bind. cbn [fst snd].
    rewrite IH. unfold bind. cbn [fst snd].
    now rewrite app_assoc.
Qed.

Lemma range_nil (lo : Z) : range lo lo = [].
Proof. unfold range. now rewrite Z.sub_diag. Qed.

Lemma range_snoc (lo hi : Z) :
  lo <= hi -> range lo (hi + 1) = range lo hi ++ [hi].
Proof.
  intros Hle. unfold range.
  replace (Z.to_nat (hi + 1 - lo)) with (S (Z.to_nat (hi - lo))) by lia.
  rewrite seq_S, map_app. cbn [map Nat.add]. do 3 f_equal. lia.
Qed.

Lemma range_length (lo hi : Z) : List.length (range lo hi) = Z.to_nat (hi - lo).
Proof. unfold range. now rewrite length_map, length_seq. Qed.

Lemma In_range (lo hi k : Z) : In k (range lo hi) <-> lo <= k < hi.
Proof.
  unfold range. rewrite in_map_iff. split.
  - intros [i [<- Hi]]. apply in_seq in Hi. lia.
  - intros Hk. exists (Z.to_nat (k - lo)). split; [lia |].
    apply in_seq. lia.
Qed.

(** ** One iteration *)

Lemma body_env (h : bool) (k : Z) (e : Env) :
  fst (body h k e) = mkEnv (t e + dt e)%float (dt e) (A1 e) (A2 e) (A3 e).
Proof. unfold body. now destruct (is_output_step k), h. Qed.

Lemma body_calls (h : bool) (k : Z) (e : Env) :
  snd (body h k e) =
  step_calls e
  ++ (if is_output_step k then output_calls h (t e + dt e)%float else [])
  ++ closing_calls (t e + dt e)%float.
Proof. unfold body. now destruct (is_output_step k), h. Qed.

(** ** The environment along the loop *)

Lemma for_each_body_env (h : bool) (ks : list Z) (e : Env) :
  fst (for_each ks (body h) e) =
  mkEnv (advance (List.length ks) (dt e) (t e)) (dt e) (A1 e) (A2 e) (A3 e).
Proof.
  revert e. induction ks as [| k ks IH]; intros e.
  - now destruct e.
  - cbn [for_each]. unfold bind. cbn [fst].
    rewrite IH, body_env. reflexivity.
Qed.

Lemma setup_env (h : bool) :
  fst (setup h) =
  mkEnv (float_of_int 0) Params.dt
        (mkTensor Forms.a1 bcu) (mkTensor Forms.a2 bcp) (mkTensor Forms.a3 []).
Proof. now destruct h. Qed.

Lemma env_after_eq (h : bool) (k : Z) :
  env_after h k =
  mkEnv (sum_copies (Z.to_nat k) Params.dt) Params.dt
        (mkTensor Forms.a1 bcu) (mkTensor Forms.a2 bcp) (mkTensor Forms.a3 []).
Proof.
  unfold env_after. rewrite for_each_body_env, setup_env, range_length.
  cbn [t dt A1 A2 A3]. unfold sum_copies. do 3 f_equal. lia.
Qed.

Lemma advance_succ (n : nat) (x t0 : float) :
  advance (S n) x t0 = (advance n x t0 + x)%float.
Proof.
  unfold advance. revert t0. induction n as [| n IH]; intros t0.
  - reflexivity.
  - change (repeat x (S (S n))) with (x :: repeat x (S n)).
    cbn [fold_left]. rewrite IH. reflexivity.
Qed.

(** ** The run as a sequence of iterations *)

Lemma time_step (h : bool) (k : Z) :
  1 <= k ->
  t (env_after h k) = (t (env_after h (k - 1)) + Params.dt)%float.
Proof.
  intros Hk. rewrite !env_after_eq. cbn [t].
  replace (Z.to_nat k) with (S (Z.to_nat (k - 1))) by lia.
  apply advance_succ.
Qed.

Lemma iteration_calls (h : bool) (k : Z) :
  iteration h k =
  step_calls (fst (setup h))
  ++ (if is_output_step k
      then output_calls h (t (env_after h (k - 1)) + Params.dt)%float
      else [])
  ++ closing_calls (t (env_after h (k - 1)) + Params.dt)%float.
Proof.
  unfold iteration. rewrite body_calls.
  rewrite !env_after_eq, setup_env. reflexivity.
Qed.

Lemma loop_calls_upto (h : bool) (n : nat) :
  snd (for_each (range 1 (Z.of_nat n + 1)) (body h) (fst (setup h))) =
  flat_map (iteration h) (range 1 (Z.of_nat n + 1)).
Proof.
  induction n as [| n IH].
  - reflexivity.
  - replace (Z.of_nat (S n) + 1) with (Z.of_nat n + 1 + 1) by lia.
    rewrite range_snoc by lia.
    rewrite for_each_app, flat_map_app. unfold bind at 1. cbn [snd].
    rewrite IH. f_equal.
    cbn [for_each flat_map]. unfold bind, ret. cbn [fst snd].
    unfold iteration, env_after.
    now replace (Z.of_nat n + 1 - 1 + 1) with (Z.of_nat n + 1) by lia.
Qed.

Lemma time_loop_calls (h : bool) :
  snd (time_loop h (fst (setup h))) =
  flat_map (iteration h) (range 1 (Params.num_steps + 1)).
Proof.
  unfold time_loop.
  rewrite <- (Z2Nat.id Params.num_steps) by (unfold Params.num_steps; lia).
  apply loop_calls_upto.
Qed.

Lemma time_loop_env (h : bool) :
  fst (time_loop h (fst (setup h))) = env_after h Params.num_steps.
Proof. unfold time_loop, env_after. reflexivity. Qed.

Lemma setup_calls_eq (h : bool) : snd (setup h) = setup_calls h.
Proof. now destruct h. Qed.

Lemma notebook_calls (h : bool) :
  snd (notebook h) =
  setup_calls h
  ++ flat_map (iteration h) (range 1 (Params.num_steps + 1))
  ++ [Interactive].
Proof.
  unfold notebook, bind. cbn [fst snd].
  rewrite time_loop_calls, setup_calls_eq. unfold call. cbn [snd fst ret].
  now rewrite app_nil_r.
Qed.

Lemma notebook_env (h : bool) :
  fst (notebook h) = env_after h Params.num_steps.
Proof.
  unfold notebook, bind. cbn [fst snd]. unfold time_loop, env_after.
  reflexivity.
Qed.

(** ** Projections of one iteration *)

Lemma assembled_iteration (h : bool) (k : Z) :
  assembled (iteration h k) = [Forms.L1; Forms.L2; Forms.L3].
Proof.
  rewrite iteration_calls. unfold assembled. rewrite !flat_map_app.
  now destruct (is_output_step k).
Qed.

Lemma is_output_step_spec (k : Z) :
  is_output_step k = true <->
  k mod (Params.num_steps / 100) = 0 \/ k = Params.num_steps.
Proof.
  unfold is_output_step, out_interval.
  now rewrite orb_true_iff, !Z.eqb_eq.
Qed.

Lemma filter_flat_map_nil {X Y : Type} (p : Y -> bool) (f : X -> list Y)
  (xs : list X) :
  (forall x, filter p (f x) = []) -> filter p (flat_map f xs) = [].
Proof.
  intros Hf. induction xs as [| x xs IH].
  - reflexivity.
  - cbn [flat_map]. now rewrite filter_app, Hf, IH.
Qed.

(** A kind of call no iteration makes is made, in a whole run, only
    before or after the loop. *)
Lemma notebook_filter (p : Call -> bool) (h : bool) :
  (forall k, filter p (iteration h k) = []) ->
  filter p (snd (notebook h)) = filter p (setup_calls h ++ [Interactive]).
Proof.
  intros Hp. rewrite notebook_calls, !filter_app.
  now rewrite (filter_flat_map_nil p (iteration h) _ Hp).
Qed.

(** The time after all [num_steps] steps is the float sum of 5000 copies of
    [dt], which is not the float [T = 5.0]. *)
Lemma final_time :
  sum_copies (Z.to_nat Params.num_steps) Params.dt = 0x1.4000000000005p+2%float.
Proof. vm_compute. reflexivity. Qed.

(** The float quotient [num_steps / 100] of Python 3 is the integer
    [out_interval], exactly. *)
Lemma out_interval_exact :
  (float_of_int Params.num_steps / float_of_int 100)%float =
  float_of_int out_interval
  /\ out_interval = 50.
Proof. split; vm_compute; reflexivity. Qed.

(** The loop has 100 output steps: 50, 100, ..., 5000. *)
Lemma output_steps :
  filter is_output_step (range 1 (Params.num_steps + 1)) =
  map (fun i => 50 * i) (range 1 101).
Proof. vm_compute. reflexivity. Qed.

(** * The statements of the specification *)

(** C1.  The calls of a run are those of the setup, then those of the
    iterations k = 1, ..., num_steps in order, then [interactive()]; and
    every iteration makes exactly three solves, in this order: the
    tentative velocity step (matrix A1 of form a1, right-hand side b1 of
    form L1, into u_), the pressure correction step (A2, b2, into p_) and
    the velocity correction step (A3, b3, into u_ again). *)
Theorem C1_three_solves_in_order (h : bool) :
  snd (notebook h) =
    snd (setup h)
    ++ flat_map (iteration h) (range 1 (Params.num_steps + 1))
    ++ [Interactive]
  /\ forall k : Z,
       solves (iteration h k) =
       [ Solve (A1 (fst (setup h))) u_ (mkTensor Forms.L1 bcu) "bicgstab" "ilu";
         Solve (A2 (fst (setup h))) p_ (mkTensor Forms.L2 bcp) "bicgstab" "ilu";
         Solve (A3 (fst (setup h))) u_ (mkTensor Forms.L3 []) "cg" "sor" ]
       /\ (form (A1 (fst (setup h))), form (A2 (fst (setup h))),
           form (A3 (fst (setup h)))) = (Forms.a1, Forms.a2, Forms.a3).
Proof.
  split.
  - now rewrite notebook_calls, setup_calls_eq.
  - intros k. split.
    + rewrite iteration_calls. unfold solves. rewrite !filter_app.
      destruct (is_output_step k); reflexivity.
    + now rewrite setup_env.
Qed.

(** C2, as stated: every iteration assembles the sub-problems it then
    solves.  It fails already in the first iteration: the matrix of the
    step-1 solve comes from the form a1, and the iteration assembles only
    L1, L2 and L3. *)
Lemma C2_matrices_not_assembled_in_step :
  ~ assembles_what_it_solves (iteration true 1).
Proof.
  intros H.
  destruct (H (mkTensor Forms.a1 bcu) u_ (mkTensor Forms.L1 bcu)
              "bicgstab" "ilu") as [Ha _].
  - rewrite iteration_calls, setup_env. apply in_or_app. left.
    unfold step_calls. cbn [A1 In]. do 4 right. now left.
  - rewrite assembled_iteration in Ha. cbn [form In] in Ha.
    destruct Ha as [Ha | [Ha | [Ha | []]]]; discriminate Ha.
Qed.

(** C2, amended.  Every iteration assembles the three right-hand sides,
    from L1, L2 and L3, each just before the solve that uses it; the three
    matrices it solves with are assembled before the loop, from a1, a2 and
    a3, and no iteration assembles a matrix. *)
Theorem C2_right_hand_sides_assembled_each_step (h : bool) (k : Z) :
  assembled (iteration h k) = [Forms.L1; Forms.L2; Forms.L3]
  /\ filter (fun c => is_assemble c || is_solve c) (iteration h k) =
     [ Assemble Forms.L1;
       Solve (mkTensor Forms.a1 bcu) u_ (mkTensor Forms.L1 bcu) "bicgstab" "ilu";
       Assemble Forms.L2;
       Solve (mkTensor Forms.a2 bcp) p_ (mkTensor Forms.L2 bcp) "bicgstab" "ilu";
       Assemble Forms.L3;
       Solve (mkTensor Forms.a3 []) u_ (mkTensor Forms.L3 []) "cg" "sor" ]
  /\ assembled (snd (setup h)) = [Forms.a1; Forms.a2; Forms.a3]
  /\ map is_bilinear (assembled (snd (setup h))) = [true; true; true]
  /\ map is_bilinear (assembled (iteration h k)) = [false; false; false].
Proof.
  conjs.
  - apply assembled_iteration.
  - rewrite iteration_calls, setup_env. rewrite !filter_app.
    destruct (is_output_step k); reflexivity.
  - rewrite setup_calls_eq. destruct h; reflexivity.
  - rewrite setup_calls_eq. destruct h; reflexivity.
  - now rewrite assembled_iteration.
Qed.

(** C3.  The domain is the difference of two primitives, the rectangle
    with corners (0, 0) and (2.2, 0.41) and the circle with centre
    (0.2, 0.2) and radius 0.05 (16 segments); it contains no union and no
    intersection, and it is the geometry the mesh is generated from. *)
Theorem C3_domain_is_rectangle_minus_circle :
  CSG.domain =
    CSG.Difference
      (CSG.Rectangle (CSG.mkPoint 0%float 0%float)
                     (CSG.mkPoint 2.2%float 0.41%float))
      (CSG.Circle (CSG.mkPoint 0.2%float 0.2%float) 0.05%float 16)
  /\ CSG.primitives CSG.domain = [CSG.channel; CSG.cylinder]
  /\ CSG.differences CSG.domain = 1%nat
  /\ CSG.unions CSG.domain = 0%nat
  /\ CSG.intersections CSG.domain = 0%nat
  /\ forall h : bool,
       filter (fun c => match c with GenerateMesh _ _ => true | _ => false end)
              (snd (notebook h)) = [GenerateMesh CSG.domain 64].
Proof.
  conjs; [reflexivity .. |].
  intros h. rewrite notebook_filter.
  - destruct h; reflexivity.
  - intros k. rewrite iteration_calls, !filter_app.
    destruct (is_output_step k); reflexivity.
Qed.

(** C4.  The step size is computed once, before the loop, as
    T / num_steps = 5.0 / 5000; no iteration changes it; every iteration
    k = 1, ..., num_steps adds exactly that step to the time; so the time
    after iteration k is the sum of k copies of the step (a float sum, taken
    from the left, starting at 0). *)
Theorem C4_fixed_time_step (h : bool) (k : Z) :
  1 <= k <= Params.num_steps ->
  dt (fst (setup h)) = (5.0 / float_of_int 5000)%float
  /\ dt (env_after h k) = dt (fst (setup h))
  /\ t (env_after h k) = (t (env_after h (k - 1)) + dt (fst (setup h)))%float
  /\ t (env_after h k) = sum_copies (Z.to_nat k) (dt (fst (setup h))).
Proof.
  intros Hk. rewrite setup_env. cbn [dt]. conjs.
  - reflexivity.
  - now rewrite env_after_eq.
  - apply time_step. lia.
  - now rewrite env_after_eq.
Qed.

Lemma C4_fixed_time_step_at_3 :
  1 <= 3 <= Params.num_steps
  /\ dt (fst (setup true)) = (5.0 / float_of_int 5000)%float
  /\ dt (env_after true 3) = dt (fst (setup true))
  /\ t (env_after true 3) =
     (t (env_after true (3 - 1)) + dt (fst (setup true)))%float
  /\ t (env_after true 3) = sum_copies (Z.to_nat 3) (dt (fst (setup true))).
Proof.
  split.
  - unfold Params.num_steps. lia.
  - apply (C4_fixed_time_step true 3). unfold Params.num_steps. lia.
Defined.

(** C5.  In every iteration the three solves name their method and
    preconditioner: 'bicgstab' with 'ilu' for the tentative velocity and
    the pressure correction steps, 'cg' with 'sor' for the velocity
    correction step. *)
Theorem C5_solver_choices (h : bool) (k : Z) :
  solver_choices (iteration h k) =
  [ ("bicgstab", "ilu"); ("bicgstab", "ilu"); ("cg", "sor") ].
Proof.
  rewrite iteration_calls. unfold solver_choices. rewrite !flat_map_app.
  destruct (is_output_step k); reflexivity.
Qed.

(** C6.  For k from 1 to num_steps: when k is a multiple of
    num_steps / 100 or k = num_steps, iteration k writes the velocity u_
    and then the pressure p_, each with the time reached in that iteration,
    to the velocity and the pressure file; otherwise iteration k writes
    nothing to any file. *)
Theorem C6_output_at_interval (h : bool) (k : Z) :
  1 <= k <= Params.num_steps ->
  (k mod (Params.num_steps / 100) = 0 \/ k = Params.num_steps ->
   file_writes (iteration h k) =
   [ WriteField (velocity_file h) u_ (t (env_after h k));
     WriteField (pressure_file h) p_ (t (env_after h k)) ])
  /\ (~ (k mod (Params.num_steps / 100) = 0 \/ k = Params.num_steps) ->
      file_writes (iteration h k) = []).
Proof.
  intros Hk. rewrite (time_step h k) by lia.
  rewrite iteration_calls. unfold file_writes. rewrite !filter_app.
  rewrite <- is_output_step_spec.
  destruct (is_output_step k); split; intros Hc;
    try reflexivity; try discriminate Hc.
  now contradiction Hc.
Qed.

Lemma C6_output_at_interval_at_50 :
  1 <= 50 <= Params.num_steps
  /\ (50 mod (Params.num_steps / 100) = 0 \/ 50 = Params.num_steps)
  /\ file_writes (iteration true 50) =
     [ WriteField xdmffile_u u_ (t (env_after true 50));
       WriteField xdmffile_p p_ (t (env_after true 50)) ].
Proof.
  assert (Hk : 1 <= 50 <= Params.num_steps) by (unfold Params.num_steps; lia).
  assert (Hc : 50 mod (Params.num_steps / 100) = 0 \/ 50 = Params.num_steps)
    by (left; reflexivity).
  split; [exact Hk |]. split; [exact Hc |].
  exact (proj1 (C6_output_at_interval true 50 Hk) Hc).
Defined.

(** C7.  The velocity conditions are, in this order, the inflow profile
    (4.0*1.5*x[1]*(0.41 - x[1]) / pow(0.41, 2), 0) on the inflow boundary,
    zero on the walls and zero on the cylinder; the one pressure condition
    is zero on the outflow boundary.  In every iteration each velocity
    condition is applied to b1 (the vector of L1) before the step-1 solve,
    and the pressure condition to b2 (the vector of L2) before the step-2
    solve. *)
Theorem C7_boundary_conditions (h : bool) (k : Z) :
  bcu =
    [ mkBC V (Expression ["4.0*1.5*x[1]*(0.41 - x[1]) / pow(0.41, 2)"; "0"] 2)
           "near(x[0], 0)";
      mkBC V (ConstantValue (Tuple [PyInt 0; PyInt 0]))
           "near(x[1], 0) || near(x[1], 0.41)";
      mkBC V (ConstantValue (Tuple [PyInt 0; PyInt 0]))
           "on_boundary && x[0]>0.1 && x[0]<0.3 && x[1]>0.1 && x[1]<0.3" ]
  /\ bcp = [ mkBC Q (ConstantValue (Scalar (PyInt 0))) "near(x[0], 2.2)" ]
  /\ filter (fun c => is_bc_apply c || is_solve c) (iteration h k) =
     [ BCApply bcu_inflow (mkTensor Forms.L1 []);
       BCApply bcu_walls (mkTensor Forms.L1 [bcu_inflow]);
       BCApply bcu_cylinder (mkTensor Forms.L1 [bcu_inflow; bcu_walls]);
       Solve (A1 (fst (setup h))) u_ (mkTensor Forms.L1 bcu) "bicgstab" "ilu";
       BCApply bcp_outflow (mkTensor Forms.L2 []);
       Solve (A2 (fst (setup h))) p_ (mkTensor Forms.L2 bcp) "bicgstab" "ilu";
       Solve (A3 (fst (setup h))) u_ (mkTensor Forms.L3 []) "cg" "sor" ].
Proof.
  conjs; [reflexivity | reflexivity |].
  rewrite iteration_calls, setup_env, !filter_app.
  destruct (is_output_step k); reflexivity.
Qed.

(** C8.  The only calls of a run that create or change a matrix are made
    before the loop: A1, A2 and A3 are assembled once each, the velocity
    conditions are applied to A1 and the pressure condition to A2.  No call
    of any iteration creates or changes a matrix, the names A1, A2 and A3
    hold after every iteration what they held before the loop, the three
    solves of every iteration take exactly these matrices, and what an
    iteration assembles are the three right-hand sides. *)
Theorem C8_matrices_assembled_once (h : bool) (k : Z) :
  filter touches_matrix (snd (notebook h)) =
    [ Assemble Forms.a1;
      BCApply bcu_inflow (mkTensor Forms.a1 []);
      BCApply bcu_walls (mkTensor Forms.a1 [bcu_inflow]);
      BCApply bcu_cylinder (mkTensor Forms.a1 [bcu_inflow; bcu_walls]);
      Assemble Forms.a2;
      BCApply bcp_outflow (mkTensor Forms.a2 []);
      Assemble Forms.a3 ]
  /\ filter touches_matrix (snd (setup h)) = filter touches_matrix (snd (notebook h))
  /\ (A1 (fst (setup h)), A2 (fst (setup h)), A3 (fst (setup h))) =
     (mkTensor Forms.a1 bcu, mkTensor Forms.a2 bcp, mkTensor Forms.a3 [])
  /\ filter touches_matrix (iteration h k) = []
  /\ (A1 (env_after h k), A2 (env_after h k), A3 (env_after h k)) =
     (A1 (fst (setup h)), A2 (fst (setup h)), A3 (fst (setup h)))
  /\ flat_map (fun c => match c with Solve A _ _ _ _ => [A] | _ => [] end)
              (iteration h k) =
     [A1 (fst (setup h)); A2 (fst (setup h)); A3 (fst (setup h))]
  /\ filter is_assemble (iteration h k) =
     [Assemble Forms.L1; Assemble Forms.L2; Assemble Forms.L3].
Proof.
  assert (Hit : forall j, filter touches_matrix (iteration h j) = []).
  { intros j. rewrite iteration_calls, !filter_app.
    destruct (is_output_step j); reflexivity. }
  assert (Hall : filter touches_matrix (snd (notebook h)) =
                 filter touches_matrix (snd (setup h))).
  { rewrite (notebook_filter _ h Hit), setup_calls_eq, filter_app.
    apply app_nil_r. }
  conjs.
  - rewrite Hall, setup_calls_eq. destruct h; reflexivity.
  - symmetry. exact Hall.
  - rewrite setup_env. reflexivity.
  - apply Hit.
  - rewrite env_after_eq, setup_env. reflexivity.
  - rewrite iteration_calls, !flat_map_app.
    destruct (is_output_step k); reflexivity.
  - rewrite iteration_calls, !filter_app.
    destruct (is_output_step k); reflexivity.
Qed.

(** C9.  Boundary conditions are applied, before the loop, to A1 and A2
    only, and in every iteration to b1 and b2 only: never to A3 (the
    matrix of a3 = dot(u, v)*dx) or to b3 (the vector of L3).  The step-3
    solve takes a matrix and a right-hand side with no condition applied,
    where the step-1 and step-2 solves take tensors with the velocity and
    the pressure conditions applied. *)
Theorem C9_no_boundary_condition_in_step_3 (h : bool) (k : Z) :
  Forms.a3 = Integral (dot (TrialFunction V) (TestFunction V)) dx
  /\ bc_targets (snd (setup h)) = [Forms.a1; Forms.a1; Forms.a1; Forms.a2]
  /\ bc_targets (iteration h k) = [Forms.L1; Forms.L1; Forms.L1; Forms.L2]
  /\ ~ In Forms.a3 (bc_targets (snd (setup h)) ++ bc_targets (iteration h k))
  /\ ~ In Forms.L3 (bc_targets (snd (setup h)) ++ bc_targets (iteration h k))
  /\ A3 (env_after h (k - 1)) = mkTensor Forms.a3 []
  /\ solve_constraints (iteration h k) = [(bcu, bcu); (bcp, bcp); ([], [])]
  /\ nth_error (solves (iteration h k)) 2 =
     Some (Solve (mkTensor Forms.a3 []) u_ (mkTensor Forms.L3 []) "cg" "sor").
Proof.
  assert (Hs : bc_targets (snd (setup h))
               = [Forms.a1; Forms.a1; Forms.a1; Forms.a2]).
  { rewrite setup_calls_eq. destruct h; reflexivity. }
  assert (Hi : bc_targets (iteration h k)
               = [Forms.L1; Forms.L1; Forms.L1; Forms.L2]).
  { rewrite iteration_calls. unfold bc_targets. rewrite !flat_map_app.
    destruct (is_output_step k); reflexivity. }
  conjs.
  - reflexivity.
  - exact Hs.
  - exact Hi.
  - rewrite Hs, Hi. cbn [app In]. intros H.
    repeat (destruct H as [H | H]; [discriminate H |]). exact H.
  - rewrite Hs, Hi. cbn [app In]. intros H.
    repeat (destruct H as [H | H]; [discriminate H |]). exact H.
  - rewrite env_after_eq. reflexivity.
  - rewrite iteration_calls, setup_env. unfold solve_constraints.
    rewrite !flat_map_app. destruct (is_output_step k); reflexivity.
  - rewrite iteration_calls, setup_env. unfold solves. rewrite !filter_app.
    destruct (is_output_step k); reflexivity.
Qed.

(** C10.  With HDF5 support the two time series are created before the
    loop, and these two creations are the only calls of the whole run that
    concern a time series: no iteration stores anything in either of them.
    What an iteration writes goes to the two XDMF files. *)
Theorem C10_time_series_never_stored (k : Z) :
  filter is_series_call (snd (setup true)) =
    [OpenSeries timeseries_u; OpenSeries timeseries_p]
  /\ filter is_series_call (iteration true k) = []
  /\ filter is_store (iteration true k) = []
  /\ filter is_series_call (snd (notebook true)) =
     [OpenSeries timeseries_u; OpenSeries timeseries_p]
  /\ filter is_store (snd (notebook true)) = []
  /\ written_files (iteration true k) =
     (if is_output_step k then [xdmffile_u; xdmffile_p] else []).
Proof.
  assert (Hser : forall j, filter is_series_call (iteration true j) = []).
  { intros j. rewrite iteration_calls, !filter_app.
    destruct (is_output_step j); reflexivity. }
  assert (Hsto : forall j, filter is_store (iteration true j) = []).
  { intros j. rewrite iteration_calls, !filter_app.
    destruct (is_output_step j); reflexivity. }
  conjs.
  - reflexivity.
  - apply Hser.
  - apply Hsto.
  - rewrite (notebook_filter _ true Hser). reflexivity.
  - rewrite (notebook_filter _ true Hsto). reflexivity.
  - rewrite iteration_calls. unfold written_files. rewrite !flat_map_app.
    destruct (is_output_step k); reflexivity.
Qed.

(** * Further properties of the run *)

(** ** Lists of calls built by [flat_map] *)

Lemma filter_flat_map {X Y : Type} (p : Y -> bool) (f : X -> list Y)
  (xs : list X) :
  filter p (flat_map f xs) = flat_map (fun x => filter p (f x)) xs.
Proof.
  induction xs as [| x xs IH].
  - reflexivity.
  - cbn [flat_map]. now rewrite filter_app, IH.
Qed.

Lemma flat_map_flat_map {X Y Z' : Type} (g : Y -> list Z') (f : X -> list Y)
  (xs : list X) :
  flat_map g (flat_map f xs) = flat_map (fun x => flat_map g (f x)) xs.
Proof.
  induction xs as [| x xs IH].
  - reflexivity.
  - cbn [flat_map]. now rewrite flat_map_app, IH.
Qed.

Lemma flat_map_when {X Y : Type} (q : X -> bool) (g : X -> list Y)
  (xs : list X) :
  flat_map (fun x => if q x then g x else []) xs = flat_map g (filter q xs).
Proof.
  induction xs as [| x xs IH].
  - reflexivity.
  - cbn [flat_map filter]. rewrite IH. now destruct (q x).
Qed.

Lemma flat_map_of_map {X Y Z' : Type} (g : Y -> list Z') (f : X -> Y)
  (xs : list X) :
  flat_map g (map f xs) = flat_map (fun x => g (f x)) xs.
Proof.
  induction xs as [| x xs IH].
  - reflexivity.
  - cbn [flat_map map]. now rewrite IH.
Qed.

Lemma flat_map_one {X Y : Type} (f : X -> Y) (xs : list X) :
  flat_map (fun x => [f x]) xs = map f xs.
Proof.
  induction xs as [| x xs IH].
  - reflexivity.
  - cbn [flat_map map app]. now rewrite IH.
Qed.

Lemma forallb_flat_map {X Y : Type} (p : Y -> bool) (f : X -> list Y)
  (xs : list X) :
  (forall x, forallb p (f x) = true) -> forallb p (flat_map f xs) = true.
Proof.
  intros Hf. induction xs as [| x xs IH].
  - reflexivity.
  - cbn [flat_map]. now rewrite forallb_app, Hf, IH.
Qed.

(** ** The loop over any list of indices, from any environment *)

Lemma for_each_cons_calls (h : bool) (k : Z) (ks : list Z) (e : Env) :
  snd (for_each (k :: ks) (body h) e) =
  snd (body h k e) ++ snd (for_each ks (body h) (fst (body h k e))).
Proof. reflexivity. Qed.

Lemma body_solves (h : bool) (k : Z) (e : Env) :
  List.length (solves (snd (body h k e))) = 3%nat.
Proof.
  rewrite body_calls. unfold solves. rewrite !filter_app.
  destruct (is_output_step k); reflexivity.
Qed.

Lemma body_assembled (h : bool) (k : Z) (e : Env) :
  assembled (snd (body h k e)) = [Forms.L1; Forms.L2; Forms.L3].
Proof.
  rewrite body_calls. unfold assembled. rewrite !flat_map_app.
  destruct (is_output_step k); reflexivity.
Qed.

Lemma notebook_calls_loop (h : bool) :
  snd (notebook h) =
  setup_calls h
  ++ snd (for_each (range 1 (Params.num_steps + 1)) (body h) (fst (setup h)))
  ++ [Interactive].
Proof.
  unfold notebook, bind. cbn [fst snd]. rewrite setup_calls_eq.
  unfold time_loop, call. cbn [snd fst ret]. now rewrite app_nil_r.
Qed.

(** X1.  However many steps the loop takes and from whatever environment
    it starts, it makes three solves and three assemblies per step.  The
    loop of the notebook takes num_steps steps, so a run makes
    3 * num_steps solves and, with the three matrices of the setup,
    3 + 3 * num_steps assemblies. *)
Theorem X1_three_solves_and_assemblies_per_step (h : bool) :
  (forall (ks : list Z) (e : Env),
     List.length (solves (snd (for_each ks (body h) e)))
       = (3 * List.length ks)%nat
     /\ List.length (assembled (snd (for_each ks (body h) e)))
       = (3 * List.length ks)%nat)
  /\ Z.of_nat (List.length (range 1 (Params.num_steps + 1))) = Params.num_steps
  /\ Z.of_nat (List.length (solves (snd (notebook h)))) = 3 * Params.num_steps
  /\ Z.of_nat (List.length (assembled (snd (notebook h))))
     = 3 + 3 * Params.num_steps.
Proof.
  assert (Hgen : forall (ks : list Z) (e : Env),
     List.length (solves (snd (for_each ks (body h) e)))
       = (3 * List.length ks)%nat
     /\ List.length (assembled (snd (for_each ks (body h) e)))
       = (3 * List.length ks)%nat).
  { induction ks as [| k ks IH]; intros e.
    - split; reflexivity.
    - rewrite for_each_cons_calls. unfold solves, assembled.
      rewrite filter_app, flat_map_app, !length_app.
      fold (solves (snd (body h k e))). fold (assembled (snd (body h k e))).
      rewrite body_solves, body_assembled.
      destruct (IH (fst (body h k e))) as [IHs IHa].
      unfold solves in IHs. unfold assembled in IHa. rewrite IHs, IHa.
      cbn [List.length]. split; lia. }
  assert (Hlen : Z.of_nat (List.length (range 1 (Params.num_steps + 1)))
                 = Params.num_steps).
  { rewrite range_length. unfold Params.num_steps. lia. }
  conjs.
  - exact Hgen.
  - exact Hlen.
  - rewrite notebook_calls_loop. unfold solves. rewrite !filter_app, !length_app.
    destruct (Hgen (range 1 (Params.num_steps + 1)) (fst (setup h))) as [Hs _].
    unfold solves in Hs. rewrite Hs.
    assert (H0 : List.length (filter is_solve (setup_calls h)) = 0%nat)
      by (destruct h; reflexivity).
    rewrite H0. cbn [filter is_solve List.length]. lia.
  - rewrite notebook_calls_loop. unfold assembled.
    rewrite !flat_map_app, !length_app.
    destruct (Hgen (range 1 (Params.num_steps + 1)) (fst (setup h))) as [_ Ha].
    unfold assembled in Ha. rewrite Ha.
    assert (H3 : List.length
                   (flat_map (fun c => match c with Assemble f => [f] | _ => [] end)
                             (setup_calls h)) = 3%nat)
      by (destruct h; reflexivity).
    rewrite H3. cbn [flat_map List.length app]. lia.
Qed.

(** ** What the iterations print, write and report *)

Lemma iteration_prints (h : bool) (k : Z) :
  filter is_print (iteration h k) =
  if is_output_step k then [PrintMax "u max:" u_] else [].
Proof.
  rewrite iteration_calls, !filter_app.
  destruct (is_output_step k); reflexivity.
Qed.

Lemma iteration_field_files (h : bool) (k : Z) :
  field_files (iteration h k) =
  if is_output_step k then [velocity_file h; pressure_file h] else [].
Proof.
  rewrite iteration_calls. unfold field_files. rewrite !flat_map_app.
  destruct (is_output_step k); reflexivity.
Qed.

Lemma iteration_progress (h : bool) (k : Z) :
  progress_fractions (iteration h k) =
  [(t (env_after h (k - 1)) + Params.dt) / Params.T]%float.
Proof.
  rewrite iteration_calls. unfold progress_fractions. rewrite !flat_map_app.
  destruct (is_output_step k); reflexivity.
Qed.

Lemma notebook_field_files (h : bool) :
  field_files (snd (notebook h)) =
  flat_map (fun _ : Z => [velocity_file h; pressure_file h]) (range 1 101).
Proof.
  rewrite notebook_calls. unfold field_files at 1. rewrite !flat_map_app.
  rewrite flat_map_flat_map.
  rewrite (flat_map_ext _ _ (iteration_field_files h)).
  rewrite (flat_map_when is_output_step
             (fun _ : Z => [velocity_file h; pressure_file h])).
  rewrite output_steps, flat_map_of_map.
  assert (H0 : flat_map (fun c => match c with WriteField f _ _ => [f] | _ => [] end)
                        (setup_calls h) = [])
    by (destruct h; reflexivity).
  rewrite H0. cbn [flat_map app]. apply app_nil_r.
Qed.

Lemma output_step_is_multiple (k : Z) : is_output_step k = (k mod 50 =? 0).
Proof.
  unfold is_output_step.
  change out_interval with 50. change Params.num_steps with 5000.
  destruct (Z.eqb_spec k 5000) as [-> | _].
  - reflexivity.
  - apply orb_false_r.
Qed.

(** X2.  For the parameters of the notebook the test [k == num_steps] adds
    no output step: a step is an output step exactly when k is a multiple
    of 50.  The loop has 100 output steps, 50, 100, ..., 5000, the last
    step among them; a run prints 'u max:' 100 times and writes 100 times
    the velocity and then the pressure, to their two files. *)
Theorem X2_hundred_output_steps (h : bool) :
  (forall k : Z, is_output_step k = (k mod 50 =? 0))
  /\ filter is_output_step (range 1 (Params.num_steps + 1))
     = map (fun i => 50 * i) (range 1 101)
  /\ is_output_step Params.num_steps = true
  /\ filter is_print (snd (notebook h))
     = map (fun _ => PrintMax "u max:" u_) (range 1 101)
  /\ field_files (snd (notebook h))
     = flat_map (fun _ => [velocity_file h; pressure_file h]) (range 1 101).
Proof.
  conjs.
  - exact output_step_is_multiple.
  - exact output_steps.
  - reflexivity.
  - rewrite notebook_calls, !filter_app, filter_flat_map.
    rewrite (flat_map_ext _ _ (iteration_prints h)).
    rewrite (flat_map_when is_output_step (fun _ : Z => [PrintMax "u max:" u_])).
    rewrite output_steps, flat_map_of_map, flat_map_one.
    assert (H0 : filter is_print (setup_calls h) = [])
      by (destruct h; reflexivity).
    rewrite H0. cbn [filter is_print app]. apply app_nil_r.
  - apply notebook_field_files.
Qed.

Lemma notebook_progress (h : bool) :
  progress_fractions (snd (notebook h)) =
  map (fun k => ((t (env_after h (k - 1)) + Params.dt) / Params.T)%float)
      (range 1 (Params.num_steps + 1)).
Proof.
  rewrite notebook_calls. unfold progress_fractions at 1.
  rewrite !flat_map_app, flat_map_flat_map.
  rewrite (flat_map_ext _ _ (iteration_progress h)), flat_map_one.
  assert (H0 : flat_map (fun c => match c with ProgressUpdate f => [f] | _ => [] end)
                        (setup_calls h) = [])
    by (destruct h; reflexivity).
  rewrite H0. cbn [flat_map app]. apply app_nil_r.
Qed.

(** X3.  The time the loop ends with is the float sum of 5000 copies of
    dt, 5.0000000000000044, which is greater than the final time T = 5.0;
    so the last fraction reported to the progress bar, t / T, is
    1.0000000000000009, greater than 1. *)
Theorem X3_final_time_exceeds_T (h : bool) :
  t (fst (notebook h)) = 0x1.4000000000005p+2%float
  /\ (Params.T <? t (fst (notebook h)))%float = true
  /\ last (progress_fractions (snd (notebook h))) 0%float
     = 0x1.0000000000004p+0%float
  /\ (1 <? last (progress_fractions (snd (notebook h))) 0)%float = true.
Proof.
  assert (Ht : t (fst (notebook h)) = 0x1.4000000000005p+2%float).
  { rewrite notebook_env, env_after_eq. cbn [t]. exact final_time. }
  assert (Hp : last (progress_fractions (snd (notebook h))) 0%float
               = 0x1.0000000000004p+0%float).
  { rewrite notebook_progress.
    rewrite (range_snoc 1 Params.num_steps) by (unfold Params.num_steps; lia).
    rewrite map_app. cbn [map]. rewrite last_last.
    rewrite <- time_step by (unfold Params.num_steps; lia).
    rewrite env_after_eq. cbn [t]. rewrite final_time.
    vm_compute. reflexivity. }
  conjs.
  - exact Ht.
  - rewrite Ht. vm_compute. reflexivity.
  - exact Hp.
  - rewrite Hp. vm_compute. reflexivity.
Qed.

(** X4.  Every step k = 1, ..., num_steps strictly increases the time: the
    float addition of dt never leaves t where it was, so the time stamps of
    the run are pairwise different and ascending. *)
Theorem X4_time_strictly_increases (h : bool) (k : Z) :
  1 <= k <= Params.num_steps ->
  (t (env_after h (k - 1)) <? t (env_after h k))%float = true.
Proof.
  intros Hk. rewrite !env_after_eq. cbn [t].
  assert (Hall : forallb
            (fun j => (sum_copies (Z.to_nat (j - 1)) Params.dt
                       <? sum_copies (Z.to_nat j) Params.dt)%float)
            (range 1 (Params.num_steps + 1)) = true)
    by (vm_compute; reflexivity).
  rewrite forallb_forall in Hall. apply Hall. apply In_range. lia.
Qed.

Lemma X4_time_strictly_increases_at_1 :
  1 <= 1 <= Params.num_steps
  /\ (t (env_after true (1 - 1)) <? t (env_after true 1))%float = true.
Proof.
  split.
  - unfold Params.num_steps. lia.
  - apply (X4_time_strictly_increases true 1). unfold Params.num_steps. lia.
Defined.

(** ** With and without HDF5 *)





Lemma iteration_opens_nothing (h : bool) (k : Z) :
  opened_files (iteration h k) = [].
Proof.
  rewrite iteration_calls. unfold opened_files. rewrite !flat_map_app.
  destruct (is_output_step k); reflexivity.
Qed.

Lemma iteration_no_mesh_write (h : bool) (k : Z) :
  filter (fun c => match c with WriteMesh _ => true | _ => false end)
         (iteration h k) = [].
Proof.
  rewrite iteration_calls, !filter_app.
  destruct (is_output_step k); reflexivity.
Qed.

Lemma iteration_no_series_call (h : bool) (k : Z) :
  filter is_series_call (iteration h k) = [].
Proof.
  rewrite iteration_calls, !filter_app.
  destruct (is_output_step k); reflexivity.
Qed.

(** X6.  A run opens exactly two result files, the velocity and the
    pressure file of the available format, both before the loop; every
    field the loop writes goes to one of these two, so with HDF5 no .pvd
    result file and without HDF5 no .xdmf file is opened or written.  The
    mesh is written once, to cylinder.pvd, in both cases, and without HDF5
    no time series is created. *)
Theorem X6_fields_go_to_the_opened_files (h : bool) :
  opened_files (snd (notebook h)) = [velocity_file h; pressure_file h]
  /\ opened_files (snd (setup h)) = opened_files (snd (notebook h))
  /\ incl (field_files (snd (notebook h))) (opened_files (snd (setup h)))
  /\ (velocity_file true, pressure_file true) = (xdmffile_u, xdmffile_p)
  /\ (velocity_file false, pressure_file false) = (vtkfile_u, vtkfile_p)
  /\ filter (fun c => match c with WriteMesh _ => true | _ => false end)
            (snd (notebook h))
     = [WriteMesh (File "navier_stokes_cylinder/cylinder.pvd")]
  /\ filter is_series_call (snd (notebook false)) = [].
Proof.
  assert (Hs : opened_files (snd (setup h))
               = [velocity_file h; pressure_file h]).
  { rewrite setup_calls_eq. destruct h; reflexivity. }
  assert (Hn : opened_files (snd (notebook h))
               = [velocity_file h; pressure_file h]).
  { rewrite notebook_calls. unfold opened_files at 1.
    rewrite !flat_map_app, flat_map_flat_map.
    rewrite (flat_map_ext _ _ (iteration_opens_nothing h)).
    fold (opened_files (setup_calls h)). rewrite <- setup_calls_eq, Hs.
    assert (H0 : flat_map (fun _ : Z => @nil OutFile)
                          (range 1 (Params.num_steps + 1)) = []).
    { induction (range 1 (Params.num_steps + 1)); [reflexivity | assumption]. }
    rewrite H0. reflexivity. }
  conjs.
  - exact Hn.
  - now rewrite Hs, Hn.
  - rewrite Hs, notebook_field_files. intros f Hf.
    apply in_flat_map in Hf. destruct Hf as [_ [_ Hf]]. exact Hf.
  - reflexivity.
  - reflexivity.
  - rewrite (notebook_filter _ h (iteration_no_mesh_write h)).
    destruct h; reflexivity.
  - rewrite (notebook_filter _ false (iteration_no_series_call false)).
    reflexivity.
Qed.

(** ** Spaces *)

Lemma iteration_spaces_fit (h : bool) (k : Z) :
  forallb spaces_fit (iteration h k) = true.
Proof.
  rewrite iteration_calls, setup_env, !forallb_app.
  destruct (is_output_step k); vm_compute; reflexivity.
Qed.

(** X7.  The spaces of every call of a run fit together.  Each velocity
    condition (space V) is applied only to tensors of forms tested with v,
    the pressure condition (space Q) only to tensors of forms tested with
    q.  Each system is solved for a function of the space of its matrix:
    u_ (in V) with A1 and A3, p_ (in Q) with A2, each against a right-hand
    side tested in the same space.  u_k and p_k are assigned from
    functions of their own spaces.  (A pressure condition on b1, or a
    solve for u_ with A2, would not fit.) *)
Theorem X7_spaces_of_calls_fit (h : bool) :
  forallb spaces_fit (snd (notebook h)) = true
  /\ map bc_space bcu = [V; V; V]
  /\ map bc_space bcp = [Q]
  /\ space_eqb V Q = false
  /\ spaces_fit (BCApply bcp_outflow (mkTensor Forms.L1 [])) = false
  /\ spaces_fit (Solve (mkTensor Forms.a2 bcp) u_ (mkTensor Forms.L2 bcp)
                       "bicgstab" "ilu") = false.
Proof.
  conjs; [| reflexivity ..].
  rewrite notebook_calls, !forallb_app.
  rewrite (forallb_flat_map _ _ _ (iteration_spaces_fit h)).
  destruct h; vm_compute; reflexivity.
Qed.

(** ** Data flow within a step *)

(** X8.  Within every iteration the functions are overwritten in the order
    u_ (step 1), p_ (step 2), u_ (step 3), u_k, p_k.  The previous solution
    u_k, p_k is overwritten only at the end: no call reads u_k or p_k after
    it was overwritten, so all three assemblies of a step see the same
    previous solution; and no solve follows a file write, so what is
    written is the corrected velocity of step 3.  u_, in contrast, is read
    after it was overwritten: steps 2 and 3 use the velocity of step 1.
    L1 reads only u_k and p_k, L2 reads p_k and u_, L3 reads u_, p_ and
    p_k. *)
Theorem X8_previous_solution_kept_during_step (h : bool) (k : Z) :
  flat_map call_writes (iteration h k) = [u_; p_; u_; u_k; p_k]
  /\ occurs_after (writes_fun u_k) (reads_fun u_k) (iteration h k) = false
  /\ occurs_after (writes_fun p_k) (reads_fun p_k) (iteration h k) = false
  /\ occurs_after is_file_write is_solve (iteration h k) = false
  /\ occurs_after is_print is_solve (iteration h k) = false
  /\ occurs_after (writes_fun u_) (reads_fun u_) (iteration h k) = true
  /\ forallb (fun f => fun_eqb f u_k || fun_eqb f p_k)
             (form_coefficients Forms.L1) = true
  /\ form_coefficients Forms.L2 = [p_k; u_]
  /\ form_coefficients Forms.L3 = [u_; p_; p_k].
Proof.
  conjs; try reflexivity;
    rewrite iteration_calls, setup_env;
    destruct (is_output_step k), h; vm_compute; reflexivity.
Qed.

(** ** Applying a list of conditions *)

Lemma apply_each_app (bcs bcs' : list DirichletBC) (x : Tensor) :
  apply_each (bcs ++ bcs') x =
  (x' <- apply_each bcs x ;; apply_each bcs' x').
Proof.
  revert x. induction bcs as [| bc bcs IH]; intros x.
  - cbn [app apply_each]. unfold bind, ret. cbn [fst snd app].
    now destruct (apply_each bcs' x).
  - cbn [app apply_each]. unfold bind. cbn [fst snd].
    rewrite IH. unfold bind. cbn [fst snd].
    now rewrite app_assoc.
Qed.

Lemma apply_each_result (bcs : list DirichletBC) (x : Tensor) :
  fst (apply_each bcs x) = mkTensor (form x) (applied x ++ bcs)
  /\ applied_conditions (snd (apply_each bcs x)) = bcs
  /\ bc_targets (snd (apply_each bcs x)) = repeat (form x) (List.length bcs)
  /\ List.length (snd (apply_each bcs x)) = List.length bcs.
Proof.
  revert x. induction bcs as [| bc bcs IH]; intros x.
  - cbn [apply_each]. unfold ret. cbn [fst snd]. rewrite app_nil_r.
    now destruct x.
  - cbn [apply_each]. unfold bc_apply, bind, call, ret. cbn [fst snd app].
    destruct (IH (mkTensor (form x) (applied x ++ [bc])))
      as [H1 [H2 [H3 H4]]].
    cbn [form applied] in H1, H3.
    rewrite H1, <- app_assoc.
    unfold applied_conditions, bc_targets in *.
    cbn [flat_map app List.length repeat form]. rewrite H2, H3, H4.
    repeat split.
Qed.

(** X9.  [[bc.apply(x) for bc in bcs]], for any list of conditions and any
    tensor: every condition of the list is applied exactly once, in list
    order, always to the same tensor, which keeps its form and ends with
    the conditions of the list added after those it had; an empty list
    makes no call and leaves the tensor as it is; and applying a list that
    is two lists joined is applying the first and then the second. *)
Theorem X9_conditions_applied_once_in_order (bcs bcs' : list DirichletBC)
  (x : Tensor) :
  fst (apply_each bcs x) = mkTensor (form x) (applied x ++ bcs)
  /\ applied_conditions (snd (apply_each bcs x)) = bcs
  /\ bc_targets (snd (apply_each bcs x)) = repeat (form x) (List.length bcs)
  /\ List.length (snd (apply_each bcs x)) = List.length bcs
  /\ apply_each [] x = (x, [])
  /\ apply_each (bcs ++ bcs') x =
     (fst (apply_each bcs' (fst (apply_each bcs x))),
      snd (apply_each bcs x) ++ snd (apply_each bcs' (fst (apply_each bcs x)))).
Proof.
  destruct (apply_each_result bcs x) as [H1 [H2 [H3 H4]]].
  conjs.
  - exact H1.
  - exact H2.
  - exact H3.
  - exact H4.
  - reflexivity.
  - rewrite apply_each_app. reflexivity.
Qed.
